(** * The collateral facet binding of lib-gotchi

    A shallow embedding of [src/lib-gotchi/aavegotchi/collateralFacet.ts]:
    eight asynchronous wrappers around the methods of one [ethers.Contract]
    binding ([collateralFacet]).  Each wrapper is a small program over three
    kinds of remote interaction (a contract method, the provider's gas price,
    the confirmation of a transaction) and [console.log]; a run of a wrapper
    against a provider yields the way its promise settles and the trace of
    everything it did, in order.

    What lies outside the file is taken as follows.  The binding is built
    from the ABI of the facet, so a call that resolves does so with a value
    of the shape that the interface in the header of the source gives.  A
    call that fails rejects with an [Error] object, as ethers does.  Every
    awaited promise settles: a run is an invocation seen to its end. *)

From Stdlib Require Import Ascii String.
From stdpp Require Import gmap strings list pretty.

Set Warnings "-register-all".

(** ** JavaScript data *)

(** The values that cross the binding.  [VNumber] is the [number] of the
    wrappers' parameters (token, haunt and collateral identifiers, amounts:
    integers, written in decimal by a template literal as long as they are
    below 10^21); [VBigNumber] is the [BigNumber] of ethers (a [uint256]
    result, a gas price).  An object is its table of own properties. *)
Inductive value :=
| VUndefined
| VBool (b : bool)
| VNumber (n : Z)
| VString (s : string)
| VBigNumber (n : Z)
| VArray (elems : list value)
| VObject (props : gmap string value).

(** [o.k]: reading a property an object does not have gives [undefined]. *)
Definition get (o : gmap string value) (k : string) : value :=
  default VUndefined (o !! k).

(** A place of the source: the function and the line. *)
Record site := { in_function : string; at_line : nat }.

(** An [Error] object: its name and message, the further properties that the
    thrower attached (ethers sets [reason], [code], [transaction], ...), and
    the stack recorded where it was constructed. *)
Record js_error := {
  err_name : string;
  err_message : string;
  err_props : gmap string value;
  err_stack : list site
}.

(** [String(e)] for an [Error] object, that is [Error.prototype.toString]. *)
Definition error_toString (e : js_error) : string :=
  if decide (err_name e = "") then err_message e
  else if decide (err_message e = "") then err_name e
  else err_name e +:+ ": " +:+ err_message e.

(** [new Error(caught)] evaluated at [here]: the argument is converted to a
    string and becomes the message; nothing else of it is kept. *)
Definition new_Error (here : site) (caught : js_error) : js_error :=
  {| err_name := "Error";
     err_message := error_toString caught;
     err_props := ∅;
     err_stack := [here] |}.

(** How a promise settles. *)
Inductive settled (A : Type) : Type :=
| Resolved (a : A)
| Rejected (e : js_error).
Arguments Resolved {A} a.
Arguments Rejected {A} e.

(** ** The remote interface *)

(** The methods of the facet that the file binds (the READ and WRITE lists of
    its header, without [setCollateralEyeShapeSvgId]). *)
Inductive method :=
| m_collaterals
| m_collateralInfo
| m_getCollateralInfo
| m_getAllCollateralTypes
| m_collateralBalance
| m_increaseStake
| m_decreaseStake
| m_decreaseAndDestroy.

(** The property of [collateralFacet] through which each method is reached. *)
Definition method_name (m : method) : string :=
  match m with
  | m_collaterals => "collaterals"
  | m_collateralInfo => "collateralInfo"
  | m_getCollateralInfo => "getCollateralInfo"
  | m_getAllCollateralTypes => "getAllCollateralTypes"
  | m_collateralBalance => "collateralBalance"
  | m_increaseStake => "increaseStake"
  | m_decreaseStake => "decreaseStake"
  | m_decreaseAndDestroy => "decreaseAndDestroy"
  end.

(** What a method call resolves to, by the interface in the header of the
    source: an array ([address[]]), one decoded struct or tuple (an object
    with named properties), an array of structs, or, for a write, the
    transaction that was submitted (an object with a [wait] method). *)
Definition response (m : method) : Type :=
  match m with
  | m_collaterals | m_getAllCollateralTypes => list value
  | m_collateralInfo | m_collateralBalance => gmap string value
  | m_getCollateralInfo => list (gmap string value)
  | m_increaseStake | m_decreaseStake | m_decreaseAndDestroy => gmap string value
  end.

(** The three awaited remote interactions. *)
Inductive remote :=
| Invoke (m : method) (args : list value)   (* collateralFacet.m(...args) *)
| GetGasPrice                               (* PROVIDER.getGasPrice() *)
| Wait (tx : gmap string value).            (* tx.wait() *)

Definition answer (r : remote) : Type :=
  match r with
  | Invoke m _ => response m
  | GetGasPrice => Z
  | Wait _ => gmap string value
  end.

(** An answer as a JavaScript value, for the trace. *)
Definition reify (r : remote) : answer r → value :=
  match r with
  | Invoke m _ =>
      match m return response m → value with
      | m_collaterals | m_getAllCollateralTypes => VArray
      | m_getCollateralInfo => λ l, VArray (VObject <$> l)
      | _ => VObject
      end
  | GetGasPrice => VBigNumber
  | Wait _ => VObject
  end.

(** ** Programs *)

(** An asynchronous function body: it returns, throws, awaits a remote
    interaction and goes on with the way that settled, or writes a line to
    the console and goes on. *)
Inductive prog (A : Type) : Type :=
| Return (a : A)
| Throw (e : js_error)
| Await (r : remote) (k : settled (answer r) → prog A)
| Log (line : list value) (k : prog A).
Arguments Return {A} a.
Arguments Throw {A} e.
Arguments Await {A} r k.
Arguments Log {A} line k.

Fixpoint bind {A B} (p : prog A) (f : A → prog B) : prog B :=
  match p with
  | Return a => f a
  | Throw e => Throw e
  | Await r k => Await r (λ s, bind (k s) f)
  | Log line k => Log line (bind k f)
  end.

#[export] Instance prog_ret : MRet prog := @Return.
#[export] Instance prog_bind : MBind prog := λ A B f p, bind p f.

(** [await e]: the value when the promise resolves, a throw of the reason
    when it rejects. *)
Definition await (r : remote) : prog (answer r) :=
  Await r (λ s, match s with Resolved x => Return x | Rejected e => Throw e end).

(** [console.log(...line)]. *)
Definition console_log (line : list value) : prog unit := Log line (Return tt).

(** [try { body } catch (error) { handler error }]. *)
Fixpoint try_catch {A} (body : prog A) (handler : js_error → prog A) : prog A :=
  match body with
  | Return a => Return a
  | Throw e => handler e
  | Await r k => Await r (λ s, try_catch (k s) handler)
  | Log line k => Log line (try_catch k handler)
  end.

(** ** Running a program against a provider *)

(** One step of a run, as an observer of the process sees it. *)
Inductive entry :=
| Remote (r : remote) (a : settled value)
| Console (line : list value).

Definition reify_settled (r : remote) (s : settled (answer r)) : settled value :=
  match s with
  | Resolved x => Resolved (reify r x)
  | Rejected e => Rejected e
  end.

Record result (A W : Type) := {
  outcome : settled A;
  trace : list entry;
  final : W
}.
Arguments outcome {A W} r.
Arguments trace {A W} r.
Arguments final {A W} r.

Section Run.
(** The world outside (chain, node, wallet) has some state [W]; [provider]
    settles each remote interaction and moves that state. *)
Context {W : Type} (provider : ∀ r : remote, W → settled (answer r) * W).

Fixpoint run {A} (p : prog A) (w : W) : result A W :=
  match p with
  | Return a => {| outcome := Resolved a; trace := []; final := w |}
  | Throw e => {| outcome := Rejected e; trace := []; final := w |}
  | Await r k =>
      let (s, w') := provider r w in
      let rest := run (k s) w' in
      {| outcome := outcome rest;
         trace := Remote r (reify_settled r s) :: trace rest;
         final := final rest |}
  | Log line k =>
      let rest := run k w in
      {| outcome := outcome rest;
         trace := Console line :: trace rest;
         final := final rest |}
  end.
End Run.

(** ** The READ wrappers *)

Definition collaterals (hauntId : Z) : prog value :=
  try_catch
    (collaterals ← await (Invoke m_collaterals [VNumber hauntId]);
     Return (VArray collaterals))
    (λ error, Throw (new_Error {| in_function := "collaterals"; at_line := 50 |} error)).

Definition collateralInfo (hauntId collateralId : Z) : prog value :=
  try_catch
    (ret ← await (Invoke m_collateralInfo [VNumber hauntId; VNumber collateralId]);
     Return (VObject {[ "collateralType" := get ret "collateralType";
                        "collateralTypeInfo" := get ret "collateralTypeInfo" ]}))
    (λ error, Throw (new_Error {| in_function := "collateralInfo"; at_line := 66 |} error)).

Definition getCollateralInfo (hauntId : Z) : prog value :=
  try_catch
    (ret ← await (Invoke m_getCollateralInfo [VNumber hauntId]);
     let collateralsInfo :=
       (λ c : gmap string value,
          VObject {[ "collateralType" := get c "collateralType";
                     "collateralTypeInfo" := get c "collateralTypeInfo" ]}) <$> ret in
     Return (VArray collateralsInfo))
    (λ error, Throw (new_Error {| in_function := "getCollateralInfo"; at_line := 86 |} error)).

Definition getAllCollateralTypes : prog value :=
  try_catch
    (allCollaterals ← await (Invoke m_getAllCollateralTypes []);
     Return (VArray allCollaterals))
    (λ error, Throw (new_Error {| in_function := "getAllCollateralTypes"; at_line := 100 |} error)).

Definition collateralBalance (tokenId : Z) : prog value :=
  try_catch
    (ret ← await (Invoke m_collateralBalance [VNumber tokenId]);
     Return (VObject {[ "collateralType" := get ret "collateralType_";
                        "escrow" := get ret "escrow_";
                        "balance" := get ret "balance_" ]}))
    (λ error, Throw (new_Error {| in_function := "collateralBalance"; at_line := 118 |} error)).

(** ** Formatting a gas price for the console *)

(** The unit names of [ethers.utils.formatUnits]; the n-th stands for 3n
    decimals. *)
Inductive unit_name := wei | kwei | mwei | gwei | szabo | finney | ether.

Definition unit_decimals (u : unit_name) : nat :=
  match u with
  | wei => 0 | kwei => 3 | mwei => 6 | gwei => 9
  | szabo => 12 | finney => 15 | ether => 18
  end.

Definition zero_digit : ascii := "0"%char.

(** Pad on the left with zeros up to [n] digits. *)
Definition pad_zeros (n : nat) (digits : list ascii) : list ascii :=
  replicate (n - length digits) zero_digit ++ digits.

(** Drop the zeros at the end. *)
Fixpoint drop_trailing_zeros (digits : list ascii) : list ascii :=
  match digits with
  | [] => []
  | d :: rest =>
      match drop_trailing_zeros rest with
      | [] => if bool_decide (d = zero_digit) then [] else [d]
      | kept => d :: kept
      end
  end.

(** The fraction as it is written: without the zeros at the end, and "0"
    when nothing else is left. *)
Definition strip_zeros (digits : list ascii) : list ascii :=
  match drop_trailing_zeros digits with
  | [] => [zero_digit]
  | kept => kept
  end.

(** [formatFixed] of ethers: the decimal writing of [value / 10^decimals]. *)
Definition formatFixed (value : Z) (decimals : nat) : string :=
  let multiplier := (10 ^ Z.of_nat decimals)%Z in
  let magnitude := Z.abs value in
  let fraction :=
    string_of_list_ascii
      (strip_zeros (pad_zeros decimals
         (list_ascii_of_string (pretty (magnitude `mod` multiplier)%Z)))) in
  let whole := pretty (magnitude `div` multiplier)%Z in
  let text := if decide (decimals = 0) then whole else whole +:+ "." +:+ fraction in
  if bool_decide (value < 0)%Z then "-" +:+ text else text.

Definition formatUnits (value : Z) (unitName : unit_name) : string :=
  formatFixed value (unit_decimals unitName).

Definition newline : string := String (ascii_of_nat 10) "".

(** ** The WRITE wrappers *)

Definition increaseStake (tokenId stakeAmount : Z) : prog value :=
  try_catch
    (console_log [VString ("Increasing stake of " +:+ pretty tokenId +:+
                           " by " +:+ pretty stakeAmount)];;
     gasPrice ← await GetGasPrice;
     console_log [VString "gas price in gwei"; VString (formatUnits gasPrice gwei)];;
     tx ← await (Invoke m_increaseStake
                   [VNumber tokenId; VNumber stakeAmount;
                    VObject {[ "gasPrice" := VBigNumber gasPrice ]}]);
     _ ← await (Wait tx);
     console_log [VString ("Transaction validated !" +:+ newline)];;
     Return VUndefined)
    (λ error, Throw (new_Error {| in_function := "increaseStake"; at_line := 154 |} error)).

Definition decreaseStake (tokenId reduceAmount : Z) : prog value :=
  try_catch
    (console_log [VString ("Reducing stake of " +:+ pretty tokenId +:+
                           " by " +:+ pretty reduceAmount)];;
     gasPrice ← await GetGasPrice;
     console_log [VString "gas price in gwei"; VString (formatUnits gasPrice gwei)];;
     tx ← await (Invoke m_decreaseStake
                   [VNumber tokenId; VNumber reduceAmount;
                    VObject {[ "gasPrice" := VBigNumber gasPrice ]}]);
     _ ← await (Wait tx);
     console_log [VString ("Transaction validated !" +:+ newline)];;
     Return VUndefined)
    (λ error, Throw (new_Error {| in_function := "decreaseStake"; at_line := 177 |} error)).

Definition decreaseAndDestroy (tokenId toId : Z) : prog value :=
  try_catch
    (console_log [VString ("Destroying gotchi: " +:+ pretty tokenId +:+
                           " and send its xp to gotchi: " +:+ pretty toId +:+ "...")];;
     gasPrice ← await GetGasPrice;
     console_log [VString "gas price in gwei"; VString (formatUnits gasPrice gwei)];;
     tx ← await (Invoke m_decreaseAndDestroy
                   [VNumber tokenId; VNumber toId;
                    VObject {[ "gasPrice" := VBigNumber gasPrice ]}]);
     _ ← await (Wait tx);
     console_log [VString ("Transaction validated !" +:+ newline)];;
     Return VUndefined)
    (λ error, Throw (new_Error {| in_function := "decreaseAndDestroy"; at_line := 200 |} error)).

(** ** The exported wrappers, as one family *)

(** A call of one of the exported functions, with its arguments. *)
Inductive invocation :=
| call_collaterals (hauntId : Z)
| call_collateralInfo (hauntId collateralId : Z)
| call_getCollateralInfo (hauntId : Z)
| call_getAllCollateralTypes
| call_collateralBalance (tokenId : Z)
| call_increaseStake (tokenId stakeAmount : Z)
| call_decreaseStake (tokenId reduceAmount : Z)
| call_decreaseAndDestroy (tokenId toId : Z).

Definition program (i : invocation) : prog value :=
  match i with
  | call_collaterals h => collaterals h
  | call_collateralInfo h c => collateralInfo h c
  | call_getCollateralInfo h => getCollateralInfo h
  | call_getAllCollateralTypes => getAllCollateralTypes
  | call_collateralBalance t => collateralBalance t
  | call_increaseStake t a => increaseStake t a
  | call_decreaseStake t a => decreaseStake t a
  | call_decreaseAndDestroy t d => decreaseAndDestroy t d
  end.

(** The name under which the function is exported. *)
Definition wrapper_name (i : invocation) : string :=
  match i with
  | call_collaterals _ => "collaterals"
  | call_collateralInfo _ _ => "collateralInfo"
  | call_getCollateralInfo _ => "getCollateralInfo"
  | call_getAllCollateralTypes => "getAllCollateralTypes"
  | call_collateralBalance _ => "collateralBalance"
  | call_increaseStake _ _ => "increaseStake"
  | call_decreaseStake _ _ => "decreaseStake"
  | call_decreaseAndDestroy _ _ => "decreaseAndDestroy"
  end.

(** The arguments it was called with, in the order of its parameters. *)
Definition arguments (i : invocation) : list value :=
  match i with
  | call_collaterals h => [VNumber h]
  | call_collateralInfo h c => [VNumber h; VNumber c]
  | call_getCollateralInfo h => [VNumber h]
  | call_getAllCollateralTypes => []
  | call_collateralBalance t => [VNumber t]
  | call_increaseStake t a => [VNumber t; VNumber a]
  | call_decreaseStake t a => [VNumber t; VNumber a]
  | call_decreaseAndDestroy t d => [VNumber t; VNumber d]
  end.

(** The functions under the WRITE banner of the source. *)
Definition is_write (i : invocation) : bool :=
  match i with
  | call_increaseStake _ _ | call_decreaseStake _ _ | call_decreaseAndDestroy _ _ => true
  | _ => false
  end.

(** ** Reading a trace *)

(** The contract methods that were invoked, with the arguments they got. *)
Definition contract_calls (t : list entry) : list (method * list value) :=
  omap (λ e, match e with Remote (Invoke m args) _ => Some (m, args) | _ => None end) t.

(** The remote interactions, in the order they were started. *)
Definition remotes (t : list entry) : list remote :=
  omap (λ e, match e with Remote r _ => Some r | _ => None end) t.


(** The errors with which remote interactions were rejected. *)
Definition failures (t : list entry) : list js_error :=
  omap (λ e, match e with Remote _ (Rejected err) => Some err | _ => None end) t.

(** The gas price queries. *)
Definition gas_queries (t : list entry) : list (settled value) :=
  omap (λ e, match e with Remote GetGasPrice a => Some a | _ => None end) t.

(** The transaction overrides object [{gasPrice: g}]. *)
Definition gas_overrides (g : Z) : value :=
  VObject {[ "gasPrice" := VBigNumber g ]}.

(** Does an argument carry a gas parameter? *)
Definition sets_gas (v : value) : bool :=
  match v with
  | VObject props => bool_decide (is_Some (props !! "gasPrice"))
  | _ => false
  end.

(** Does a step of the run query a gas price or hand one to a contract call? *)
Definition touches_gas (e : entry) : bool :=
  match e with
  | Remote GetGasPrice _ => true
  | Remote (Invoke _ args) _ => existsb sets_gas args
  | _ => false
  end.

(** The awaited interactions with the way each settled, in order. *)
Definition interactions (t : list entry) : list (remote * settled value) :=
  omap (λ e, match e with Remote r a => Some (r, a) | _ => None end) t.

(** The place of the [catch] clause of each wrapper, where it builds the
    error that it throws. *)
Definition catch_site (i : invocation) : site :=
  {| in_function := wrapper_name i;
     at_line := match i with
                | call_collaterals _ => 50
                | call_collateralInfo _ _ => 66
                | call_getCollateralInfo _ => 86
                | call_getAllCollateralTypes => 100
                | call_collateralBalance _ => 118
                | call_increaseStake _ _ => 154
                | call_decreaseStake _ _ => 177
                | call_decreaseAndDestroy _ _ => 200
                end |}.


(** The three awaits of a write wrapper, one after the other: [t] lists the
    interactions of a run and [o] is the way the wrapper's promise settled.
    An interaction is in the list only if the one before it resolved; the
    gas price that the query gave is the one handed to the method [m], and
    the transaction that [m] gave is the one waited for. *)
Definition awaited_in_sequence (i : invocation) (m : method)
    (t : list (remote * settled value)) (o : settled value) : Prop :=
  (∃ e, t = [(GetGasPrice, Rejected e)] ∧
        o = Rejected (new_Error (catch_site i) e)) ∨
  (∃ g e, t = [(GetGasPrice, Resolved (VBigNumber g));
               (Invoke m (arguments i ++ [gas_overrides g]), Rejected e)] ∧
          o = Rejected (new_Error (catch_site i) e)) ∨
  (∃ g tx e, t = [(GetGasPrice, Resolved (VBigNumber g));
                  (Invoke m (arguments i ++ [gas_overrides g]), Resolved (VObject tx));
                  (Wait tx, Rejected e)] ∧
             o = Rejected (new_Error (catch_site i) e)) ∨
  (∃ g tx receipt,
     t = [(GetGasPrice, Resolved (VBigNumber g));
          (Invoke m (arguments i ++ [gas_overrides g]), Resolved (VObject tx));
          (Wait tx, Resolved (VObject receipt))] ∧
     o = Resolved VUndefined).

(** ** Providers for examples *)

(** A provider that answers by a fixed table and counts the interactions. *)
Record table := {
  on_invoke : ∀ m : method, list value → settled (response m);
  on_gas : settled Z;
  on_wait : gmap string value → settled (gmap string value)
}.

Definition tabled (tb : table) (r : remote) (n : nat) : settled (answer r) * nat :=
  (match r return settled (answer r) with
   | Invoke m args => on_invoke tb m args
   | GetGasPrice => on_gas tb
   | Wait tx => on_wait tb tx
   end, S n).

Definition sample_error : js_error :=
  {| err_name := "Error";
     err_message := "call revert exception";
     err_props := {[ "code" := VString "CALL_EXCEPTION" ]};
     err_stack := [{| in_function := "Logger.makeError"; at_line := 199 |}] |}.

Definition sample_tx : gmap string value := {[ "hash" := VString "0xabc" ]}.
Definition sample_receipt : gmap string value := {[ "status" := VNumber 1 ]}.

Definition sample_struct : gmap string value :=
  {[ "0" := VString "0xE0b2"; "1" := VObject {[ "delisted" := VBool false ]};
     "collateralType" := VString "0xE0b2";
     "collateralTypeInfo" := VObject {[ "delisted" := VBool false ]} ]}.

Definition sample_balance : gmap string value :=
  {[ "collateralType_" := VString "0xE0b2"; "escrow_" := VString "0x51c0";
     "balance_" := VBigNumber 1000 ]}.

(** Every interaction succeeds. *)
Definition healthy : table :=
  {| on_invoke := λ m _,
       match m return settled (response m) with
       | m_collaterals | m_getAllCollateralTypes => Resolved [VString "0xE0b2"; VString "0x2700"]
       | m_collateralInfo => Resolved sample_struct
       | m_getCollateralInfo => Resolved [sample_struct; sample_struct]
       | m_collateralBalance => Resolved sample_balance
       | _ => Resolved sample_tx
       end;
     on_gas := Resolved 30000000000%Z;
     on_wait := λ _, Resolved sample_receipt |}.

(** The node does not answer the gas price query. *)
Definition no_gas_price : table :=
  {| on_invoke := on_invoke healthy;
     on_gas := Rejected sample_error;
     on_wait := on_wait healthy |}.

(** Every contract call is rejected. *)
Definition reverting : table :=
  {| on_invoke := λ m _, Rejected sample_error;
     on_gas := on_gas healthy;
     on_wait := on_wait healthy |}.

(** The transaction is submitted but its confirmation fails. *)
Definition unconfirmed : table :=
  {| on_invoke := on_invoke healthy;
     on_gas := on_gas healthy;
     on_wait := λ _, Rejected sample_error |}.


(** A provider with a state: the stake of the one token it knows.  A read of
    the balance answers with the stake of the moment; the writes move it. *)
Definition staking (r : remote) (stake : Z) : settled (answer r) * Z :=
  match r return settled (answer r) * Z with
  | Invoke m args =>
      match m return settled (response m) * Z with
      | m_collateralBalance =>
          (Resolved (<[ "balance_" := VBigNumber stake ]> sample_balance), stake)
      | m_increaseStake =>
          match args with
          | [VNumber _; VNumber amount; _] => (Resolved sample_tx, (stake + amount)%Z)
          | _ => (Rejected sample_error, stake)
          end
      | m_decreaseStake =>
          match args with
          | [VNumber _; VNumber amount; _] =>
              if bool_decide (amount ≤ stake)%Z
              then (Resolved sample_tx, (stake - amount)%Z)
              else (Rejected sample_error, stake)
          | _ => (Rejected sample_error, stake)
          end
      | m_decreaseAndDestroy => (Resolved sample_tx, 0%Z)
      | m => (on_invoke healthy m args, stake)
      end
  | GetGasPrice => (Resolved 30000000000%Z, stake)
  | Wait _ => (Resolved sample_receipt, stake)
  end.

(** The node answers the balance call with an object without [balance_]. *)
Definition without_balance : table :=
  {| on_invoke := λ m args,
       match m return settled (response m) with
       | m_collateralBalance => Resolved (delete "balance_" sample_balance)
       | m => on_invoke healthy m args
       end;
     on_gas := on_gas healthy;
     on_wait := on_wait healthy |}.

(** A struct with its two named properties and nothing else. *)
Definition plain_struct (address : string) : gmap string value :=
  {[ "collateralType" := VString address;
     "collateralTypeInfo" := VObject {[ "delisted" := VBool false ]} ]}.

(** The node answers [getCollateralInfo] with such structs. *)
Definition plain_structs : table :=
  {| on_invoke := λ m args,
       match m return settled (response m) with
       | m_getCollateralInfo => Resolved [plain_struct "0xE0b2"; plain_struct "0x2700"]
       | m => on_invoke healthy m args
       end;
     on_gas := on_gas healthy;
     on_wait := on_wait healthy |}.

(** ** Reading the console *)

(** What was written to the console, line by line. *)
Definition console_lines (t : list entry) : list (list value) :=
  omap (λ e, match e with Console line => Some line | _ => None end) t.

(** The line that a write wrapper writes last. *)
Definition validated_line : list value :=
  [VString ("Transaction validated !" +:+ newline)].

(** The line in which a write wrapper shows a gas price. *)
Definition gas_price_line (g : Z) : list value :=
  [VString "gas price in gwei"; VString (formatUnits g gwei)].

(** * Properties *)

(** ** Sanity of the model on the sample providers *)

Example formatUnits_gwei :
  formatUnits 30000000000 gwei = "30.0" ∧
  formatUnits 1500000000 gwei = "1.5" ∧
  formatUnits 1 gwei = "0.000000001" ∧
  formatUnits 0 gwei = "0.0".
Proof. by vm_compute. Qed.

Example increaseStake_healthy_console :
  omap (λ e, match e with Console line => Some line | _ => None end)
       (trace (run (tabled healthy) (increaseStake 7 100) 0)) =
  [ [VString "Increasing stake of 7 by 100"];
    [VString "gas price in gwei"; VString "30.0"];
    [VString ("Transaction validated !" +:+ newline)] ].
Proof. by vm_compute. Qed.

Example collaterals_healthy :
  outcome (run (tabled healthy) (collaterals 1) 0) =
    Resolved (VArray [VString "0xE0b2"; VString "0x2700"]) ∧
  outcome (run (tabled healthy) getAllCollateralTypes 0) =
    Resolved (VArray [VString "0xE0b2"; VString "0x2700"]) ∧
  contract_calls (trace (run (tabled healthy) (collaterals 1) 0)) =
    [(m_collaterals, [VNumber 1])].
Proof. by vm_compute. Qed.

Example collateralInfo_healthy :
  outcome (run (tabled healthy) (collateralInfo 1 0) 0) =
  Resolved (VObject
    {[ "collateralType" := VString "0xE0b2";
       "collateralTypeInfo" := VObject {[ "delisted" := VBool false ]} ]}).
Proof. by vm_compute. Qed.

Example collateralBalance_healthy :
  outcome (run (tabled healthy) (collateralBalance 7) 0) =
  Resolved (VObject {[ "collateralType" := VString "0xE0b2";
                       "escrow" := VString "0x51c0";
                       "balance" := VBigNumber 1000 ]}).
Proof. by vm_compute. Qed.

Example getCollateralInfo_healthy :
  outcome (run (tabled healthy) (getCollateralInfo 1) 0) =
  Resolved (VArray (replicate 2 (VObject
    {[ "collateralType" := VString "0xE0b2";
       "collateralTypeInfo" := VObject {[ "delisted" := VBool false ]} ]}))).
Proof. by vm_compute. Qed.

Example increaseStake_unconfirmed :
  outcome (run (tabled unconfirmed) (increaseStake 7 100) 0) =
  Rejected (new_Error {| in_function := "increaseStake"; at_line := 154 |} sample_error) ∧
  length (trace (run (tabled unconfirmed) (increaseStake 7 100) 0)) = 5.
Proof. by vm_compute. Qed.

(** ** Strings and errors *)

Lemma string_length_app (s1 s2 : string) :
  String.length (s1 +:+ s2) = String.length s1 + String.length s2.
Proof.
  induction s1 as [|c s1 IH]; [done|].
  change (S (String.length (s1 +:+ s2)) = S (String.length s1 + String.length s2)).
  by rewrite IH.
Qed.

Lemma error_toString_cases (e : js_error) :
  (err_name e = "" ∧ error_toString e = err_message e) ∨
  (err_name e ≠ "" ∧ err_message e = "" ∧ error_toString e = err_name e) ∨
  (err_name e ≠ "" ∧ err_message e ≠ "" ∧
   error_toString e = err_name e +:+ ": " +:+ err_message e).
Proof.
  unfold error_toString.
  destruct (decide (err_name e = "")); [by left|].
  destruct (decide (err_message e = "")); right; [by left | by right].
Qed.

(** The error that [new Error(e)] builds is never [e]: were they equal, [e]
    would be named "Error" and its message would be its own writing, which
    is longer than the message ("Error: ...") or, for an empty message, the
    name. *)
Lemma new_Error_differs (here : site) (e : js_error) : new_Error here e ≠ e.
Proof.
  intros Heq.
  assert (Hname : err_name e = "Error") by (by rewrite <- Heq).
  assert (Hmsg : error_toString e = err_message e) by (by rewrite <- Heq at 2).
  destruct (error_toString_cases e) as [[Hn _]|[(_ & Hm & Hs)|(_ & Hm & Hs)]].
  - by rewrite Hname in Hn.
  - rewrite Hs, Hm, Hname in Hmsg. discriminate.
  - rewrite Hs in Hmsg. apply (f_equal String.length) in Hmsg.
    rewrite !string_length_app in Hmsg. rewrite Hname in Hmsg. simpl in Hmsg. lia.
Qed.

(** Only the writing of the caught error reaches the new one. *)
Lemma new_Error_of_writing (here : site) (e1 e2 : js_error) :
  error_toString e1 = error_toString e2 → new_Error here e1 = new_Error here e2.
Proof. unfold new_Error. by intros ->. Qed.

#[local] Instance VObject_inj : Inj (=) (=) VObject.
Proof. by intros ?? [=]. Qed.

(** ** Runs of the wrappers against any provider *)

Section Wrappers.
Context {W : Type} (provider : ∀ r : remote, W → settled (answer r) * W).
Implicit Types (i : invocation) (w : W).

(** Case analysis on the way each awaited interaction of a run settles. *)
Ltac settle :=
  repeat match goal with
         | |- context [provider ?r ?w] =>
             destruct (provider r w) as [[?|?] ?] eqn:?; cbn -[pretty formatUnits]
         end.
Ltac by_wrapper i := destruct i; cbn -[pretty formatUnits]; settle.

(** [bind] runs the first program and, when it returned, the second from
    the state it left; a throw ends the run. *)
Lemma run_bind {A B} (p : prog A) (f : A → prog B) w :
  run provider (bind p f) w =
  match outcome (run provider p w) with
  | Resolved a =>
      let rest := run provider (f a) (final (run provider p w)) in
      {| outcome := outcome rest;
         trace := trace (run provider p w) ++ trace rest;
         final := final rest |}
  | Rejected e =>
      {| outcome := Rejected e;
         trace := trace (run provider p w);
         final := final (run provider p w) |}
  end.
Proof.
  revert w. induction p as [a|e|r k IH|line k IH]; intros w; simpl.
  - by destruct (run provider (f a) w).
  - done.
  - destruct (provider r w) as [s w']. rewrite IH.
    by destruct (outcome (run provider (k s) w')).
  - rewrite IH. by destruct (outcome (run provider k w)).
Qed.

(** [try_catch] runs the body and, only when it threw, the handler on what
    was thrown, from the state the body left; what the handler throws is
    not caught again. *)
Lemma run_try_catch {A} (body : prog A) (handler : js_error → prog A) w :
  run provider (try_catch body handler) w =
  match outcome (run provider body w) with
  | Resolved a => run provider body w
  | Rejected e =>
      let rest := run provider (handler e) (final (run provider body w)) in
      {| outcome := outcome rest;
         trace := trace (run provider body w) ++ trace rest;
         final := final rest |}
  end.
Proof.
  revert w. induction body as [a|e|r k IH|line k IH]; intros w; simpl.
  - done.
  - by destruct (run provider (handler e) w).
  - destruct (provider r w) as [s w']. rewrite IH.
    by destruct (run provider (k s) w') as [[a|e] t w''].
  - rewrite IH. by destruct (run provider k w) as [[a|e] t w''].
Qed.

(** C1. Whenever a wrapper invokes a method of the contract binding, it is
    the method of the wrapper's own name, and the arguments of the wrapper
    are its leading arguments, unchanged and in the same order: a read
    wrapper passes nothing else, a write wrapper appends the overrides
    object.  No value of an argument keeps the call from being made: it is
    made in every run, except in a write wrapper whose gas price query was
    rejected before. *)
Theorem wrapper_passes_arguments_through i w :
  let t := trace (run provider (program i) w) in
  (∀ m args, (m, args) ∈ contract_calls t →
     method_name m = wrapper_name i ∧
     take (length (arguments i)) args = arguments i ∧
     if is_write i then ∃ g, args = arguments i ++ [gas_overrides g]
     else args = arguments i) ∧
  (contract_calls t = [] → is_write i = true ∧ ∃ e, gas_queries t = [Rejected e]).
Proof.
  by_wrapper i.
  all: split; [intros m args Hin | intros Hnil].
  all: try (apply list_elem_of_singleton in Hin; injection Hin as -> ->).
  all: try by (repeat split; eauto).
  all: try by apply elem_of_nil in Hin.
  all: try (split; [done | eauto]).
Qed.


(** C3, as the code has it.  A read wrapper neither queries nor sets a gas
    parameter.  A write wrapper queries the gas price of the provider, once;
    when the query resolves, the price it gave is handed unchanged, as the
    [gasPrice] of the overrides object, to the one contract call that the
    wrapper makes; when the query is rejected no contract call is made.  No
    contract call is made a second time. *)
Theorem gas_price_comes_from_the_provider i w :
  let t := trace (run provider (program i) w) in
  length (contract_calls t) ≤ 1 ∧
  if is_write i
  then ∃ a, gas_queries t = [a] ∧
            match a with
            | Resolved price =>
                ∃ g m, price = VBigNumber g ∧
                       contract_calls t = [(m, arguments i ++ [gas_overrides g])] ∧
                       method_name m = wrapper_name i
            | Rejected _ => contract_calls t = []
            end
  else existsb touches_gas t = false.
Proof.
  by_wrapper i; (split; [lia|]); try done.
  all: eexists; (split; [reflexivity|]); cbn; try done.
  all: do 2 eexists; split; [reflexivity|]; split; reflexivity.
Qed.


(** C5. In a write wrapper the awaits follow one another: the contract
    method is invoked only after the gas price query has resolved, and with
    the price it gave; [tx.wait] is invoked only after the contract method
    has resolved, on the transaction it gave; and the promise of the wrapper
    resolves only after [tx.wait] has resolved. *)
Theorem write_wrappers_await_in_sequence i w :
  is_write i = true →
  ∃ m, method_name m = wrapper_name i ∧
       awaited_in_sequence i m
         (interactions (trace (run provider (program i) w)))
         (outcome (run provider (program i) w)).
Proof.
  intros Hw. destruct i; try discriminate Hw.
  1: exists m_increaseStake.
  2: exists m_decreaseStake.
  3: exists m_decreaseAndDestroy.
  all: (split; [reflexivity|]); unfold awaited_in_sequence;
    cbn -[pretty formatUnits]; settle.
  all: first [ by left; eauto
             | by right; left; eauto
             | by right; right; left; eauto
             | by right; right; right; eauto ].
Qed.

(** C6, as the code has it.  A wrapper invokes no other contract method than
    its own, and never more than once, whether the call fails or succeeds.
    A read wrapper invokes it exactly once.  A write wrapper invokes it
    exactly once when its gas price query resolved and not at all when that
    query was rejected. *)
Theorem contract_method_invoked_at_most_once i w :
  let t := trace (run provider (program i) w) in
  (∀ m args, (m, args) ∈ contract_calls t → method_name m = wrapper_name i) ∧
  length (contract_calls t) ≤ 1 ∧
  (if is_write i
   then (length (contract_calls t) = 1 ↔ ∃ g, gas_queries t = [Resolved g]) ∧
        (length (contract_calls t) = 0 ↔ ∃ e, gas_queries t = [Rejected e])
   else length (contract_calls t) = 1).
Proof.
  by_wrapper i.
  all: split; [intros m args Hin|].
  all: try by apply elem_of_nil in Hin.
  all: try by (apply list_elem_of_singleton in Hin; injection Hin as -> ->).
  all: split; [lia|].
  all: try done.
  all: split; split; try done; eauto.
  all: by intros [? ?].
Qed.


(** C9. The error with which a wrapper rejects is not the error of the
    remote interaction: it is built by [new Error] in the [catch] clause,
    is named "Error", has the writing of the caught error as its message,
    no further property and the stack of the [catch] clause; any caught
    error with the same writing, whatever its properties and stack, gives
    the same one. *)
Theorem rethrown_error_is_fresh i w e' :
  outcome (run provider (program i) w) = Rejected e' →
  ∃ e, failures (trace (run provider (program i) w)) = [e] ∧
       e' ≠ e ∧
       err_name e' = "Error" ∧
       err_message e' = error_toString e ∧
       err_props e' = ∅ ∧
       err_stack e' = [catch_site i] ∧
       ∀ e2, error_toString e2 = error_toString e → new_Error (catch_site i) e2 = e'.
Proof.
  by_wrapper i; intros He'; try discriminate He'.
  all: injection He' as <-.
  all: eexists; split; [reflexivity|].
  all: split; [apply new_Error_differs|].
  all: repeat split; try done.
  all: intros e2 He2; by apply new_Error_of_writing.
Qed.

(** C10. A write wrapper that resolves, resolves with [undefined]: neither
    the transaction nor the receipt of [tx.wait] is returned. *)
Theorem write_wrappers_resolve_with_undefined i w v :
  is_write i = true →
  outcome (run provider (program i) w) = Resolved v →
  v = VUndefined.
Proof.
  intros Hw. destruct i; try discriminate Hw; cbn -[pretty formatUnits]; settle.
  all: congruence.
Qed.

End Wrappers.

(** ** Two runs of a wrapper *)

Section TwoWorlds.
Context {W1 W2 : Type}.
Context (p1 : ∀ r : remote, W1 → settled (answer r) * W1).
Context (p2 : ∀ r : remote, W2 → settled (answer r) * W2).



End TwoWorlds.

(** ** The sample providers, again *)

(** Between two reads of a balance, a write shows: nothing is kept from the
    first read. *)
Example balance_read_again_after_a_write :
  let before := run staking (collateralBalance 7) 400%Z in
  let write := run staking (increaseStake 7 600) (final before) in
  let after := run staking (collateralBalance 7) (final write) in
  outcome before =
    Resolved (VObject {[ "collateralType" := VString "0xE0b2";
                         "escrow" := VString "0x51c0";
                         "balance" := VBigNumber 400 ]}) ∧
  outcome after =
    Resolved (VObject {[ "collateralType" := VString "0xE0b2";
                         "escrow" := VString "0x51c0";
                         "balance" := VBigNumber 1000 ]}).
Proof. by vm_compute. Qed.

(** C3, as it was stated, fails: [increaseStake] asks the provider for the
    gas price and sets it on the transaction that it submits. *)
Lemma increaseStake_queries_and_sets_gas_price :
  let t := trace (run (tabled healthy) (program (call_increaseStake 7 100)) 0) in
  existsb touches_gas t = true ∧
  gas_queries t = [Resolved (VBigNumber 30000000000)] ∧
  contract_calls t =
    [(m_increaseStake,
      [VNumber 7; VNumber 100; VObject {[ "gasPrice" := VBigNumber 30000000000 ]}])].
Proof. by vm_compute. Qed.

(** C6, as it was stated, fails: when the gas price query is rejected,
    [decreaseStake] rejects without having invoked the contract method. *)
Lemma decreaseStake_not_invoked_without_gas_price :
  let r := run (tabled no_gas_price) (program (call_decreaseStake 7 100)) 0 in
  length (contract_calls (trace r)) = 0 ∧
  remotes (trace r) = [GetGasPrice] ∧
  outcome r = Rejected (new_Error (catch_site (call_decreaseStake 7 100)) sample_error).
Proof. by vm_compute. Qed.

(** C5 at work: [increaseStake 7 100] against the provider that succeeds. *)
Lemma write_wrappers_await_in_sequence_witness :
  is_write (call_increaseStake 7 100) = true ∧
  ∃ m, method_name m = wrapper_name (call_increaseStake 7 100) ∧
       awaited_in_sequence (call_increaseStake 7 100) m
         (interactions (trace (run (tabled healthy) (program (call_increaseStake 7 100)) 0)))
         (outcome (run (tabled healthy) (program (call_increaseStake 7 100)) 0)).
Proof.
  split; [reflexivity|].
  apply (write_wrappers_await_in_sequence (tabled healthy) (call_increaseStake 7 100) 0).
  reflexivity.
Defined.



(** C9 at work: [collaterals 1] against the provider whose calls revert. *)
Lemma rethrown_error_is_fresh_witness :
  let i := call_collaterals 1 in
  let e' := new_Error (catch_site i) sample_error in
  outcome (run (tabled reverting) (program i) 0) = Rejected e' ∧
  ∃ e, failures (trace (run (tabled reverting) (program i) 0)) = [e] ∧
       e' ≠ e ∧
       err_name e' = "Error" ∧
       err_message e' = error_toString e ∧
       err_props e' = ∅ ∧
       err_stack e' = [catch_site i] ∧
       ∀ e2, error_toString e2 = error_toString e → new_Error (catch_site i) e2 = e'.
Proof.
  split; [reflexivity|].
  apply (rethrown_error_is_fresh (tabled reverting) (call_collaterals 1) 0).
  reflexivity.
Defined.

(** C10 at work: [decreaseAndDestroy 7 8] against the provider that
    succeeds. *)
Lemma write_wrappers_resolve_with_undefined_witness :
  is_write (call_decreaseAndDestroy 7 8) = true ∧
  ∃ v, outcome (run (tabled healthy) (program (call_decreaseAndDestroy 7 8)) 0) = Resolved v ∧
       v = VUndefined.
Proof.
  split; [reflexivity|].
  exists VUndefined. split; [vm_compute; reflexivity|].
  apply (write_wrappers_resolve_with_undefined (tabled healthy)
           (call_decreaseAndDestroy 7 8) 0 VUndefined); [reflexivity|].
  vm_compute; reflexivity.
Defined.

(** ** Further properties of the wrappers *)

Lemma string_app_assoc (s1 s2 s3 : string) :
  (s1 +:+ s2) +:+ s3 = s1 +:+ (s2 +:+ s3).
Proof.
  induction s1 as [|c s1 IH]; [done|].
  change (String c ((s1 +:+ s2) +:+ s3) = String c (s1 +:+ (s2 +:+ s3))).
  by rewrite IH.
Qed.

Lemma string_app_empty_r (s : string) : s +:+ "" = s.
Proof.
  induction s as [|c s IH]; [done|].
  change (String c (s +:+ "") = String c s). by rewrite IH.
Qed.

(** The message of the caught error ends the message of the new one. *)
Lemma new_Error_keeps_message (here : site) (e : js_error) :
  ∃ prefix, err_message (new_Error here e) = prefix +:+ err_message e.
Proof.
  simpl. destruct (error_toString_cases e) as [[_ Hs]|[(_ & Hm & Hs)|(_ & _ & Hs)]].
  - exists "". by rewrite Hs.
  - exists (err_name e). by rewrite Hs, Hm, string_app_empty_r.
  - exists (err_name e +:+ ": "). by rewrite Hs, string_app_assoc.
Qed.

(** The writing of the new error is the writing of the caught one after
    "Error: ". *)
Lemma new_Error_toString (here : site) (e : js_error) :
  error_toString (new_Error here e) =
  if decide (error_toString e = "") then "Error" else "Error: " +:+ error_toString e.
Proof.
  unfold error_toString at 1. simpl.
  destruct (decide (error_toString e = "")); [done|].
  by destruct (decide ("Error" = "")).
Qed.

(** Copying the two properties of a struct that has no other property gives
    the struct again. *)
Lemma copy_of_plain_struct (c : gmap string value) :
  dom c = {[ "collateralType"; "collateralTypeInfo" ]} →
  {[ "collateralType" := get c "collateralType";
     "collateralTypeInfo" := get c "collateralTypeInfo" ]} = c.
Proof.
  intros Hdom. apply map_eq. intros k. unfold get.
  destruct (decide (k = "collateralType")) as [->|Hk1];
    [|destruct (decide (k = "collateralTypeInfo")) as [->|Hk2]].
  - assert (Hin : "collateralType" ∈ dom c).
    { rewrite Hdom, elem_of_union, !elem_of_singleton. by left. }
    apply elem_of_dom in Hin as [x Hx]. rewrite Hx. by simplify_map_eq.
  - assert (Hin : "collateralTypeInfo" ∈ dom c).
    { rewrite Hdom, elem_of_union, !elem_of_singleton. by right. }
    apply elem_of_dom in Hin as [x Hx]. rewrite Hx. by simplify_map_eq.
  - assert (Hout : k ∉ dom c).
    { rewrite Hdom, elem_of_union, !elem_of_singleton. by intros [?|?]. }
    apply not_elem_of_dom in Hout. rewrite Hout. by simplify_map_eq.
Qed.

Section MoreOnWrappers.
Context {W : Type} (provider : ∀ r : remote, W → settled (answer r) * W).
Implicit Types (i : invocation) (w : W).

Ltac settle_all :=
  repeat match goal with
         | |- context [provider ?r ?w] =>
             destruct (provider r w) as [[?|?] ?] eqn:?; cbn -[pretty formatUnits]
         end.

(** A line of the console that is not the last line of a write wrapper: it
    starts with another letter. *)
Ltac other_line H :=
  first [ by apply elem_of_nil in H
        | apply elem_of_cons in H as [H|H];
          [ unfold validated_line in H; cbv [String.app String.append newline] in H;
            discriminate H
          | other_line H ] ].

(** X1. A read wrapper does one thing only: it invokes its method, once,
    with its arguments.  It writes nothing to the console, asks for no gas
    price and waits for no transaction; the state of the world after it is
    the state that this one call left. *)
Theorem read_wrapper_only_invokes_its_method i w :
  is_write i = false →
  ∃ m, method_name m = wrapper_name i ∧
       remotes (trace (run provider (program i) w)) = [Invoke m (arguments i)] ∧
       length (trace (run provider (program i) w)) = 1 ∧
       final (run provider (program i) w) = (provider (Invoke m (arguments i)) w).2.
Proof.
  intros Hr. destruct i; try discriminate Hr.
  1: exists m_collaterals.
  2: exists m_collateralInfo.
  3: exists m_getCollateralInfo.
  4: exists m_getAllCollateralTypes.
  5: exists m_collateralBalance.
  all: (split; [reflexivity|]); cbn -[pretty formatUnits]; settle_all; done.
Qed.

(** X2. A write wrapper first writes a line to the console, before any
    remote interaction, whatever happens later.  The line
    "Transaction validated !" is written exactly when the wrapper resolves,
    and then it is the last thing the wrapper does. *)
Theorem write_wrapper_logs_validation_iff_resolved i w :
  is_write i = true →
  let r := run provider (program i) w in
  (∃ banner rest, trace r = Console [VString banner] :: rest) ∧
  (validated_line ∈ console_lines (trace r) ↔ ∃ v, outcome r = Resolved v) ∧
  ((∃ v, outcome r = Resolved v) → last (trace r) = Some (Console validated_line)).
Proof.
  intros Hw. destruct i; try discriminate Hw; cbn -[pretty formatUnits]; settle_all.
  all: split; [eauto|]; split; [split|].
  all: try by intros [? ?].
  all: try by eauto.
  all: try (intros _; unfold validated_line; set_solver).
  all: intros Hin; other_line Hin.
Qed.

(** X3. When the gas price query of a write wrapper resolves, the second
    line of the console shows that price in gwei, and it is the price that
    the contract call receives as its last argument; when the query is
    rejected, the first line stays the only one. *)
Theorem write_wrapper_logs_the_gas_price_it_submits i w :
  is_write i = true →
  let t := trace (run provider (program i) w) in
  (∀ g, gas_queries t = [Resolved (VBigNumber g)] →
     console_lines t !! 1 = Some (gas_price_line g) ∧
     ∀ m args, (m, args) ∈ contract_calls t → last args = Some (gas_overrides g)) ∧
  (∀ e, gas_queries t = [Rejected e] → length (console_lines t) = 1).
Proof.
  intros Hw. destruct i; try discriminate Hw; cbn -[pretty formatUnits]; settle_all.
  all: split; [intros g [= Hg] | intros err [= Herr]]; try subst.
  all: try done.
  all: split; [done|].
  all: intros m args Hin; apply list_elem_of_singleton in Hin; by injection Hin as -> ->.
Qed.

(** X4. [getCollateralInfo] and [collateralInfo] unmarshal alike: when the
    contract answers [collateralInfo h n] with the n-th struct of its answer
    to [getCollateralInfo h], the n-th element of what [getCollateralInfo]
    returns is what [collateralInfo] returns. *)
Theorem getCollateralInfo_agrees_with_collateralInfo (h : Z) (n : nat) w w'
    (l : list (gmap string value)) (c : gmap string value) w1 w2 :
  provider (Invoke m_getCollateralInfo [VNumber h]) w = (Resolved l, w1) →
  l !! n = Some c →
  provider (Invoke m_collateralInfo [VNumber h; VNumber (Z.of_nat n)]) w' = (Resolved c, w2) →
  ∃ out v, outcome (run provider (getCollateralInfo h) w) = Resolved (VArray out) ∧
           out !! n = Some v ∧
           outcome (run provider (collateralInfo h (Z.of_nat n)) w') = Resolved v.
Proof.
  intros Hall Hn Hone. cbn. rewrite Hall, Hone. cbn.
  do 2 eexists. split; [reflexivity|]. split; [|reflexivity].
  by rewrite list_lookup_fmap, Hn.
Qed.

(** X5. The message of the error with which a wrapper rejects ends with the
    message of the error that was caught, and the new error is written as
    "Error: " followed by the writing of the caught one ("Error" alone when
    that writing is empty). *)
Theorem rejection_message_ends_with_the_original i w e' :
  outcome (run provider (program i) w) = Rejected e' →
  ∃ e, failures (trace (run provider (program i) w)) = [e] ∧
       (∃ prefix, err_message e' = prefix +:+ err_message e) ∧
       error_toString e' =
         if decide (error_toString e = "") then "Error"
         else "Error: " +:+ error_toString e.
Proof.
  destruct i; cbn -[pretty formatUnits]; settle_all; intros He'; try discriminate He'.
  all: injection He' as <-.
  all: eexists; split; [reflexivity|].
  all: split; [apply new_Error_keeps_message | apply new_Error_toString].
Qed.

(** X7. A property that the answer to [collateralBalance] lacks does not
    make the wrapper throw: the wrapper resolves, and the property of the
    result that was to hold it is there with the value [undefined]. *)
Theorem collateralBalance_missing_field_is_undefined (tokenId : Z) w
    (ret : gmap string value) w' (k_out k_in : string) :
  provider (Invoke m_collateralBalance [VNumber tokenId]) w = (Resolved ret, w') →
  (k_out, k_in) ∈ [("collateralType", "collateralType_"); ("escrow", "escrow_");
                   ("balance", "balance_")] →
  ret !! k_in = None →
  ∃ o, outcome (run provider (collateralBalance tokenId) w) = Resolved (VObject o) ∧
       o !! k_out = Some VUndefined.
Proof.
  intros Hp Hk Hnone. cbn -[pretty formatUnits]. rewrite Hp. cbn.
  eexists; split; [reflexivity|].
  repeat (apply elem_of_cons in Hk as [[= -> ->]|Hk]);
    [..|by apply elem_of_nil in Hk]; unfold get; rewrite Hnone; by simplify_map_eq.
Qed.

(** X8. When every struct of the answer to [getCollateralInfo] has the
    properties [collateralType] and [collateralTypeInfo] and no other, the
    wrapper returns the answer as it is: same structs, same order. *)
Theorem getCollateralInfo_returns_plain_structs_unchanged (h : Z) w
    (l : list (gmap string value)) w' :
  provider (Invoke m_getCollateralInfo [VNumber h]) w = (Resolved l, w') →
  Forall (λ c, dom c = {[ "collateralType"; "collateralTypeInfo" ]}) l →
  outcome (run provider (getCollateralInfo h) w) = Resolved (VArray (VObject <$> l)).
Proof.
  intros Hp Hall. cbn. rewrite Hp. cbn. do 2 f_equal. clear Hp.
  induction Hall as [|c l Hc _ IH]; [done|].
  rewrite !fmap_cons, IH. by rewrite (copy_of_plain_struct c Hc).
Qed.

End MoreOnWrappers.

Section Stages.
Context {W1 W2 : Type}.
Context (p1 : ∀ r : remote, W1 → settled (answer r) * W1).
Context (p2 : ∀ r : remote, W2 → settled (answer r) * W2).

Ltac settle_two :=
  repeat match goal with
         | |- context [p1 ?r ?w] =>
             destruct (p1 r w) as [[?|?] ?]; cbn -[pretty formatUnits]
         | |- context [p2 ?r ?w] =>
             destruct (p2 r w) as [[?|?] ?]; cbn -[pretty formatUnits]
         end.

(** X6. The error with which a wrapper rejects does not tell which of its
    awaits failed: two invocations with the same arguments in which the same
    error was thrown, at whatever stage each, reject with the same error. *)
Theorem rejection_does_not_tell_the_stage i (w1 : W1) (w2 : W2) e :
  failures (trace (run p1 (program i) w1)) = [e] →
  failures (trace (run p2 (program i) w2)) = [e] →
  outcome (run p1 (program i) w1) = outcome (run p2 (program i) w2).
Proof.
  destruct i; cbn -[pretty formatUnits]; settle_two; intros H1 H2;
    try discriminate H1; try discriminate H2.
  all: congruence.
Qed.

End Stages.

(** ** The further properties on the sample providers *)

(** X1 at work: the balance of token 7. *)
Lemma read_wrapper_only_invokes_its_method_witness :
  let i := call_collateralBalance 7 in
  is_write i = false ∧
  ∃ m, method_name m = wrapper_name i ∧
       remotes (trace (run (tabled healthy) (program i) 0)) = [Invoke m (arguments i)] ∧
       length (trace (run (tabled healthy) (program i) 0)) = 1 ∧
       final (run (tabled healthy) (program i) 0) =
         (tabled healthy (Invoke m (arguments i)) 0).2.
Proof.
  split; [reflexivity|].
  apply (read_wrapper_only_invokes_its_method (tabled healthy) (call_collateralBalance 7) 0).
  reflexivity.
Defined.

(** X2 at work: [decreaseStake 7 100] against the provider that succeeds. *)
Lemma write_wrapper_logs_validation_iff_resolved_witness :
  let i := call_decreaseStake 7 100 in
  let r := run (tabled healthy) (program i) 0 in
  is_write i = true ∧
  (∃ banner rest, trace r = Console [VString banner] :: rest) ∧
  (validated_line ∈ console_lines (trace r) ↔ ∃ v, outcome r = Resolved v) ∧
  ((∃ v, outcome r = Resolved v) → last (trace r) = Some (Console validated_line)).
Proof.
  split; [reflexivity|].
  apply (write_wrapper_logs_validation_iff_resolved (tabled healthy)
           (call_decreaseStake 7 100) 0).
  reflexivity.
Defined.

(** X3 at work: [increaseStake 7 100] at a gas price of 30 gwei. *)
Lemma write_wrapper_logs_the_gas_price_it_submits_witness :
  let i := call_increaseStake 7 100 in
  let t := trace (run (tabled healthy) (program i) 0) in
  is_write i = true ∧
  gas_queries t = [Resolved (VBigNumber 30000000000)] ∧
  console_lines t !! 1 = Some [VString "gas price in gwei"; VString "30.0"] ∧
  ∀ m args, (m, args) ∈ contract_calls t → last args = Some (gas_overrides 30000000000).
Proof.
  assert (Hw : is_write (call_increaseStake 7 100) = true) by reflexivity.
  assert (Hg : gas_queries (trace (run (tabled healthy) (program (call_increaseStake 7 100)) 0))
               = [Resolved (VBigNumber 30000000000)]) by (vm_compute; reflexivity).
  split; [exact Hw|]. split; [exact Hg|].
  exact (proj1 (write_wrapper_logs_the_gas_price_it_submits (tabled healthy)
                  (call_increaseStake 7 100) 0 Hw) 30000000000%Z Hg).
Defined.

(** X4 at work: the second collateral of haunt 1. *)
Lemma getCollateralInfo_agrees_with_collateralInfo_witness :
  tabled healthy (Invoke m_getCollateralInfo [VNumber 1]) 0 =
    (Resolved [sample_struct; sample_struct], 1) ∧
  [sample_struct; sample_struct] !! 1 = Some sample_struct ∧
  tabled healthy (Invoke m_collateralInfo [VNumber 1; VNumber (Z.of_nat 1)]) 0 =
    (Resolved sample_struct, 1) ∧
  ∃ out v, outcome (run (tabled healthy) (getCollateralInfo 1) 0) = Resolved (VArray out) ∧
           out !! 1 = Some v ∧
           outcome (run (tabled healthy) (collateralInfo 1 (Z.of_nat 1)) 0) = Resolved v.
Proof.
  repeat (split; [reflexivity|]).
  apply (getCollateralInfo_agrees_with_collateralInfo (tabled healthy) 1 1 0 0
           [sample_struct; sample_struct] sample_struct 1 1); reflexivity.
Defined.

(** X5 at work: a confirmation that fails with "call revert exception". *)
Lemma rejection_message_ends_with_the_original_witness :
  let i := call_increaseStake 7 100 in
  let e' := new_Error (catch_site i) sample_error in
  outcome (run (tabled unconfirmed) (program i) 0) = Rejected e' ∧
  err_message e' = "Error: call revert exception" ∧
  ∃ e, failures (trace (run (tabled unconfirmed) (program i) 0)) = [e] ∧
       (∃ prefix, err_message e' = prefix +:+ err_message e) ∧
       error_toString e' =
         if decide (error_toString e = "") then "Error"
         else "Error: " +:+ error_toString e.
Proof.
  split; [vm_compute; reflexivity|]. split; [reflexivity|].
  apply (rejection_message_ends_with_the_original (tabled unconfirmed)
           (call_increaseStake 7 100) 0).
  vm_compute; reflexivity.
Defined.

(** X6 at work: the same error once from the gas price query, with no
    transaction submitted, and once from the confirmation of a transaction
    that was submitted. *)
Lemma rejection_does_not_tell_the_stage_witness :
  let i := call_increaseStake 7 100 in
  let early := run (tabled no_gas_price) (program i) 0 in
  let late := run (tabled unconfirmed) (program i) 0 in
  failures (trace early) = [sample_error] ∧
  failures (trace late) = [sample_error] ∧
  length (contract_calls (trace early)) = 0 ∧
  length (contract_calls (trace late)) = 1 ∧
  outcome early = outcome late.
Proof.
  assert (H1 : failures (trace (run (tabled no_gas_price)
                 (program (call_increaseStake 7 100)) 0)) = [sample_error])
    by (vm_compute; reflexivity).
  assert (H2 : failures (trace (run (tabled unconfirmed)
                 (program (call_increaseStake 7 100)) 0)) = [sample_error])
    by (vm_compute; reflexivity).
  split; [exact H1|]. split; [exact H2|].
  split; [vm_compute; reflexivity|]. split; [vm_compute; reflexivity|].
  exact (rejection_does_not_tell_the_stage (tabled no_gas_price) (tabled unconfirmed)
           (call_increaseStake 7 100) 0 0 sample_error H1 H2).
Defined.

(** X7 at work: an answer without [balance_]. *)
Lemma collateralBalance_missing_field_is_undefined_witness :
  let ret := delete "balance_" sample_balance in
  tabled without_balance (Invoke m_collateralBalance [VNumber 7]) 0 = (Resolved ret, 1) ∧
  ret !! "balance_" = None ∧
  ∃ o, outcome (run (tabled without_balance) (collateralBalance 7) 0) = Resolved (VObject o) ∧
       o !! "balance" = Some VUndefined.
Proof.
  split; [reflexivity|]. split; [vm_compute; reflexivity|].
  apply (collateralBalance_missing_field_is_undefined (tabled without_balance) 7 0
           (delete "balance_" sample_balance) 1 "balance" "balance_").
  - reflexivity.
  - do 2 apply list_elem_of_further. apply list_elem_of_here.
  - vm_compute; reflexivity.
Defined.

(** X8 at work: two structs with nothing but their two properties. *)
Lemma getCollateralInfo_returns_plain_structs_unchanged_witness :
  let l := [plain_struct "0xE0b2"; plain_struct "0x2700"] in
  tabled plain_structs (Invoke m_getCollateralInfo [VNumber 1]) 0 = (Resolved l, 1) ∧
  Forall (λ c, dom c = {[ "collateralType"; "collateralTypeInfo" ]}) l ∧
  outcome (run (tabled plain_structs) (getCollateralInfo 1) 0) =
    Resolved (VArray (VObject <$> l)).
Proof.
  assert (Hall : Forall (λ c : gmap string value,
                           dom c = {[ "collateralType"; "collateralTypeInfo" ]})
                   [plain_struct "0xE0b2"; plain_struct "0x2700"])
    by (repeat constructor; vm_compute; reflexivity).
  split; [reflexivity|]. split; [exact Hall|].
  exact (getCollateralInfo_returns_plain_structs_unchanged (tabled plain_structs) 1 0
           [plain_struct "0xE0b2"; plain_struct "0x2700"] 1 eq_refl Hall).
Defined.
